(** * The HeyGen LiveAvatar streaming backend ([main.py])

    A shallow embedding of the six FastAPI route handlers of [main.py],
    their two HTTP helpers, and the exception handling that turns the
    outcome of the single outbound call into an HTTP response.

    Python values are embedded as the JSON values the [json] module
    produces; the handlers live in a small monad [Py] that reads the world
    (the upstream, the API key, the traceback printer), logs every outbound
    call that reaches the upstream, and either returns or raises.

    Three steps of the libraries encode a value as JSON with
    [allow_nan=False] and raise [ValueError] on NaN and the infinities
    (which [json.loads] accepts, for instance as [1e400]): httpx when it
    builds a request with [json=], [JSONResponse] when it is constructed,
    and FastAPI when it renders the value a handler returns. All three are
    part of the model. *)

From Stdlib Require Import ZArith String Ascii.
From Stdlib Require Import Floats.SpecFloat.
From stdpp Require Import base option list gmap strings.

Set Warnings "-register-all".
Local Open Scope string_scope.
Local Open Scope Z_scope.

(** ** JSON values *)

(** What [json.loads] hands back: [None], [bool], [int], [float], [str],
    [list] and [dict]. A [dict] is a finite map on its keys. *)
Inductive JSON : Type :=
| JNull
| JBool (b : bool)
| JInt (n : Z)
| JFloat (x : spec_float)
| JStr (s : string)
| JArr (l : list JSON)
| JObj (d : gmap string JSON).

(** Python's [bool(v)]: [None], [False], zero, and every empty container are
    falsy; everything else (NaN included) is truthy. *)
Definition truthy (v : JSON) : bool :=
  match v with
  | JNull => false
  | JBool b => b
  | JInt n => negb (n =? 0)
  | JFloat (S754_zero _) => false
  | JFloat _ => true
  | JStr EmptyString => false
  | JStr (String _ _) => true
  | JArr [] => false
  | JArr (_ :: _) => true
  | JObj d => negb (Nat.eqb (size d) 0)
  end.

(** [type(v).__name__], as it shows in an [AttributeError]. *)
Definition type_name (v : JSON) : string :=
  match v with
  | JNull => "NoneType"
  | JBool _ => "bool"
  | JInt _ => "int"
  | JFloat _ => "float"
  | JStr _ => "str"
  | JArr _ => "list"
  | JObj _ => "dict"
  end.


(** A float that has a JSON text: not NaN, not an infinity. *)
Definition finite (x : spec_float) : bool :=
  match x with
  | S754_zero _ | S754_finite _ _ _ => true
  | S754_infinity _ | S754_nan => false
  end.

(** [json.dumps(v, allow_nan=False)] succeeds: no float anywhere in [v] is
    NaN or an infinity. *)
Fixpoint json_compliant (v : JSON) : bool :=
  match v with
  | JFloat x => finite x
  | JArr l => forallb json_compliant l
  | JObj d => map_fold (fun _ x acc => json_compliant x && acc) true d
  | _ => true
  end.

(** The outcome of decoding a body as JSON: [x.json()] either returns the
    value or raises a [JSONDecodeError] with a message. *)
Inductive decoded : Type :=
| Malformed (msg : string)
| Decoded (v : JSON).

(** ** httpx *)

Module httpx.

(** A response as the handlers observe it: [res.status_code], [res.text]
    and the outcome of [res.json()]. *)
Record Response : Type := {
  status_code : Z;
  text : string;
  json : decoded
}.

Inductive verb : Type := GET | POST.

(** One outbound call: [client.get(url, headers=...)] or
    [client.post(url, json=..., headers=...)] on an
    [AsyncClient(timeout=...)]; the timeout is in seconds. *)
Record OutboundCall : Type := {
  method : verb;
  url : string;
  headers : list (string * string);
  body : option JSON;
  timeout : Z
}.

(** What the upstream does with a call: it answers, the client gives up
    waiting ([httpx.TimeoutException]), or the transport fails in some
    other way (connection refused, protocol error, ...). *)
Inductive outcome : Type :=
| Responded (r : Response)
| TimedOut (msg : string)
| Failed (msg : string).

(** [Response.is_success]. *)
Definition is_success (r : Response) : bool :=
  (200 <=? status_code r) && (status_code r <=? 299).

End httpx.

(** ** Exceptions *)

(** The three classes the handlers tell apart. [Exception] stands for every
    other subclass of Python's [Exception] (connection errors,
    [JSONDecodeError], [AttributeError], [KeyError], ...). *)
Inductive exn : Type :=
| TimeoutException (msg : string)
| HTTPStatusError (msg : string) (response : httpx.Response)
| Exception (msg : string).

(** [str(e)]. *)
Definition str (e : exn) : string :=
  match e with
  | TimeoutException msg => msg
  | HTTPStatusError msg _ => msg
  | Exception msg => msg
  end.

(** The [ValueError] of [json.dumps(..., allow_nan=False)] on a value that is
    not [json_compliant]. *)
Definition out_of_range : exn :=
  Exception "Out of range float values are not JSON compliant".

(** ** The world a handler runs in *)

Record World : Type := {
  (** [os.getenv("HEYGEN_API_KEY")], read once at import. *)
  HEYGEN_API_KEY : string;
  (** the upstream services, as a function of the call they receive *)
  send : httpx.OutboundCall -> httpx.outcome;
  (** the text httpx puts into an [HTTPStatusError] for a response *)
  status_message : httpx.Response -> string;
  (** [traceback.format_exc()] while the exception is being handled *)
  format_exc : exn -> string
}.

(** ** The handler monad *)

Inductive result (A : Type) : Type :=
| Raised (e : exn)
| Returned (a : A).
Arguments Raised {A} e.
Arguments Returned {A} a.

(** A computation reads the world, extends the log of outbound calls made so
    far, and returns or raises. *)
Definition Py (A : Type) : Type :=
  World -> list httpx.OutboundCall -> list httpx.OutboundCall * result A.

Definition ret {A} (a : A) : Py A := fun _ log => (log, Returned a).

Definition raise {A} (e : exn) : Py A := fun _ log => (log, Raised e).

Definition bind {A B} (m : Py A) (k : A -> Py B) : Py B :=
  fun w log =>
    match m w log with
    | (log', Returned a) => k a w log'
    | (log', Raised e) => (log', Raised e)
    end.

Notation "'do' x <- m ; k" := (bind m (fun x => k))
  (at level 10, x name, m at level 100, k at level 200).

(** [try: body / except ... as e: handler e]. An exception raised by the
    handler itself is not caught again: it leaves the [try] statement. *)
Definition try_except {A} (body : Py A) (handler : exn -> Py A) : Py A :=
  fun w log =>
    match body w log with
    | (log', Raised e) => handler e w log'
    | (log', Returned a) => (log', Returned a)
    end.

Definition ask : Py World := fun w log => (log, Returned w).

(** [print(...)]: writes to stdout, which no response depends on. *)
Definition print {A} (_ : A) : Py unit := ret tt.

(** ** Python operations the handlers use *)

Definition attribute_error (v : JSON) (attr : string) : exn :=
  Exception ("'" ++ type_name v ++ "' object has no attribute '" ++ attr ++ "'").

(** [v.get(k)]: the member, [None] when the key is missing; only a [dict]
    has the method. *)
Definition dict_get (v : JSON) (k : string) : Py JSON :=
  match v with
  | JObj d => ret (default JNull (d !! k))
  | _ => raise (attribute_error v "get")
  end.

(** [v[k]] on a [dict] (the only subscript in the source is on [data] after
    [data.get] succeeded, so [data] is a [dict] there). *)
Definition dict_getitem (v : JSON) (k : string) : Py JSON :=
  match v with
  | JObj d =>
      match d !! k with
      | Some x => ret x
      | None => raise (Exception ("'" ++ k ++ "'"))
      end
  | _ => raise (Exception ("'" ++ type_name v ++ "' object is not subscriptable"))
  end.

(** [v.keys()]. *)
Definition dict_keys (v : JSON) : Py (list string) :=
  match v with
  | JObj d => ret (fst <$> map_to_list d)
  | _ => raise (attribute_error v "keys")
  end.

(** [res.json()]. *)
Definition Response_json (res : httpx.Response) : Py JSON :=
  match httpx.json res with
  | Decoded v => ret v
  | Malformed msg => raise (Exception msg)
  end.

(** [res.raise_for_status()]: httpx raises [HTTPStatusError] for every
    status that is not a success, 1xx and 3xx included. *)
Definition raise_for_status (res : httpx.Response) : Py unit :=
  do w <- ask;
  if httpx.is_success res then ret tt
  else raise (HTTPStatusError (status_message w res) res).

(** The payload of a call has a JSON text. *)
Definition encodable (payload : option JSON) : bool :=
  match payload with
  | Some v => json_compliant v
  | None => true
  end.

(** [await client.get(...)] / [await client.post(...)]. httpx first builds
    the request, encoding a [json=] payload with [allow_nan=False]: a
    payload that is not [json_compliant] raises [ValueError] and nothing is
    sent. Otherwise the call is logged and handed to the upstream. *)
Definition client_send (c : httpx.OutboundCall) : Py httpx.Response :=
  fun w log =>
    if encodable (httpx.body c) then
      ((log ++ [c])%list,
       match send w c with
       | httpx.Responded r => Returned r
       | httpx.TimedOut msg => Raised (TimeoutException msg)
       | httpx.Failed msg => Raised (Exception msg)
       end)
    else (log, Raised out_of_range).

(** ** fastapi *)

Module fastapi.

(** A [JSONResponse] object: the status and the content it has rendered. *)
Record JSONResponse : Type := {
  status_code : Z;
  content : JSON
}.

(** The inbound request, as far as [chat] reads it: the outcome of
    [await request.json()]. *)
Record Request : Type := {
  json : decoded
}.

(** The response FastAPI sends for a plain value a handler returns, once
    the value has rendered: JSON with the route's default status, 200
    (whether it renders is decided by [serialize_response] below). *)
Definition default_response (v : JSON) : JSONResponse :=
  {| status_code := 200; content := v |}.

End fastapi.

Definition Request_json (request : fastapi.Request) : Py JSON :=
  match fastapi.json request with
  | Decoded v => ret v
  | Malformed msg => raise (Exception msg)
  end.

(** The response object with the given status and rendered content. *)
Definition JSONResponse (status_code : Z) (content : JSON) : fastapi.JSONResponse :=
  {| fastapi.status_code := status_code; fastapi.content := content |}.

(** [JSONResponse(status_code=..., content=...)] as the handlers call it:
    the constructor renders the content with [allow_nan=False], so it
    raises [ValueError] on a content that is not [json_compliant]. *)
Definition JSONResponse_init (status_code : Z) (content : JSON)
  : Py fastapi.JSONResponse :=
  if json_compliant content then ret (JSONResponse status_code content)
  else raise out_of_range.

(** What a handler returns: a plain value, or a response object. *)
Inductive returned : Type :=
| Value (v : JSON)
| Response (r : fastapi.JSONResponse).

(** [return JSONResponse(status_code=..., content=...)]. *)
Definition respond (status_code : Z) (content : JSON) : Py returned :=
  do r <- JSONResponse_init status_code content;
  ret (Response r).

(** What FastAPI does with what the handler returned, after the handler and
    outside its [try]: a response object is sent as it is, a plain value is
    rendered as a [JSONResponse] with status 200. *)
Definition serialize_response (x : returned) : Py fastapi.JSONResponse :=
  match x with
  | Response r => ret r
  | Value v => JSONResponse_init 200 v
  end.

(** ** main.py *)

Definition BASE_URL : string := "https://api.heygen.com".
Definition RAG_API_URL : string := "https://rag-super-agent.onrender.com/chat/".

(** The call [heygen_get] makes for [endpoint]. *)
Definition heygen_get_call (w : World) (endpoint : string) : httpx.OutboundCall :=
  {| httpx.method := httpx.GET;
     httpx.url := BASE_URL ++ "/" ++ endpoint;
     httpx.headers := [("X-Api-Key", HEYGEN_API_KEY w)];
     httpx.body := None;
     httpx.timeout := 60 |}.

(** Helper function for GET requests to HeyGen API. *)
Definition heygen_get (endpoint : string) : Py JSON :=
  do w <- ask;
  do res <- client_send (heygen_get_call w endpoint);
  do _ <- raise_for_status res;
  Response_json res.

(** Helper function for POST requests to HeyGen API (no route calls it). *)
Definition heygen_post (endpoint : string) (data : option JSON) : Py JSON :=
  do w <- ask;
  do res <- client_send
      {| httpx.method := httpx.POST;
         httpx.url := BASE_URL ++ "/" ++ endpoint;
         httpx.headers := [("X-Api-Key", HEYGEN_API_KEY w);
                           ("Content-Type", "application/json")];
         httpx.body := data;
         httpx.timeout := 60 |};
  do _ <- raise_for_status res;
  Response_json res.

Definition obj (l : list (string * JSON)) : JSON := JObj (list_to_map l).

(** [GET /]: health check endpoint. *)
Definition root : Py returned :=
  ret (Value (obj [
    ("status", JStr "ok");
    ("service", JStr "HeyGen LiveAvatar Streaming Backend");
    ("endpoints", obj [
       ("streaming_token", JStr "/streaming_token (POST)");
       ("avatars", JStr "/avatars (all avatars)");
       ("interactive_avatars", JStr "/interactive_avatars (streaming only)");
       ("voices", JStr "/voices");
       ("chat", JStr "/chat (POST)")]);
    ("limits", obj [
       ("free_tier", obj [
          ("resolution", JStr "720p max");
          ("session_duration", JStr "3 minutes max");
          ("credits_per_minute", JStr "0.2 credits");
          ("monthly_credits", JStr "10 credits")])])])).

(** The call [get_streaming_token] makes. *)
Definition streaming_token_call (w : World) : httpx.OutboundCall :=
  {| httpx.method := httpx.POST;
     httpx.url := BASE_URL ++ "/v1/streaming.create_token";
     httpx.headers := [("X-Api-Key", HEYGEN_API_KEY w);
                       ("Content-Type", "application/json")];
     httpx.body := None;
     httpx.timeout := 60 |}.

(** [POST /streaming_token]: get streaming token for LiveAvatar SDK.

    In the [except httpx.HTTPStatusError] clause the source writes
    [e.response.text if e.response else str(e)]; an httpx response is always
    truthy, so the first alternative is the one taken. The timeout [60.0] is
    kept as the integer number of seconds. *)
Definition get_streaming_token : Py returned :=
  try_except
    (do w <- ask;
     do res <- client_send (streaming_token_call w);
     if negb (httpx.status_code res =? 200) then
       let error_text := httpx.text res in
       do _ <- try_except
                 (do error_json <- Response_json res;
                  print (httpx.status_code res, error_json))
                 (fun _ => print (httpx.status_code res, error_text));
       respond (httpx.status_code res)
         (obj [("error", JStr error_text);
               ("status", JInt (httpx.status_code res));
               ("details", JStr "Check backend logs")])
     else
       do result <- Response_json res;
       do ks <- dict_keys result;
       do _ <- print ks;
       ret (Value result))
    (fun e =>
       match e with
       | TimeoutException _ =>
           respond 504 (obj [("error", JStr ("Request timeout: " ++ str e))])
       | HTTPStatusError _ response =>
           let error_text := httpx.text response in
           respond (httpx.status_code response)
             (obj [("error", JStr error_text);
                   ("status", JInt (httpx.status_code response))])
       | Exception _ =>
           do w <- ask;
           respond 500
             (obj [("error", JStr (str e));
                   ("traceback", JStr (format_exc w e))])
       end).

(** [GET /avatars]: all avatars, regular and interactive. *)
Definition get_avatars : Py returned :=
  try_except
    (do result <- heygen_get "v2/avatars";
     ret (Value result))
    (fun e =>
       match e with
       | TimeoutException _ =>
           respond 504 (obj [("error", JStr ("Request timeout: " ++ str e))])
       | HTTPStatusError _ response =>
           respond (httpx.status_code response)
             (obj [("error", JStr (httpx.text response))])
       | Exception _ =>
           do w <- ask;
           respond 500
             (obj [("error", JStr (str e));
                   ("traceback", JStr (format_exc w e))])
       end).

(** [GET /interactive_avatars]: interactive avatars only. *)
Definition get_interactive_avatars : Py returned :=
  try_except
    (do result <- heygen_get "v1/streaming/avatar.list";
     ret (Value result))
    (fun e =>
       match e with
       | TimeoutException _ =>
           respond 504 (obj [("error", JStr ("Request timeout: " ++ str e))])
       | HTTPStatusError _ response =>
           respond (httpx.status_code response)
             (obj [("error", JStr (httpx.text response))])
       | Exception _ =>
           respond 500 (obj [("error", JStr (str e))])
       end).

(** [GET /voices]: voices for streaming. *)
Definition get_voices : Py returned :=
  try_except
    (do result <- heygen_get "v2/voices";
     ret (Value result))
    (fun e =>
       match e with
       | TimeoutException _ =>
           respond 504 (obj [("error", JStr ("Request timeout: " ++ str e))])
       | HTTPStatusError _ response =>
           respond (httpx.status_code response)
             (obj [("error", JStr (httpx.text response))])
       | Exception _ =>
           respond 500 (obj [("error", JStr (str e))])
       end).

(** The call [chat] makes with [payload]. *)
Definition chat_call (payload : gmap string JSON) : httpx.OutboundCall :=
  {| httpx.method := httpx.POST;
     httpx.url := RAG_API_URL;
     httpx.headers := [("Content-Type", "application/json")];
     httpx.body := Some (JObj payload);
     httpx.timeout := 120 |}.

(** [bool(s)] for a [str]. *)
Definition nonempty (s : string) : bool :=
  match s with
  | EmptyString => false
  | String _ _ => true
  end.

(** [POST /chat]: chat endpoint that calls the RAG Super Agent API. *)
Definition chat (request : fastapi.Request) : Py returned :=
  try_except
    (do data <- Request_json request;
     do message <- dict_get data "message";
     if negb (truthy message) then
       respond 400 (obj [("error", JStr "Message is required")])
     else
       let payload : gmap string JSON := {[ "message" := message ]} in
       do conversation_id <- dict_get data "conversation_id";
       do payload <-
          (if truthy conversation_id then
             do v <- dict_getitem data "conversation_id";
             ret (<["conversation_id" := v]> payload)
           else ret payload);
       do res <- client_send (chat_call payload);
       do _ <- raise_for_status res;
       do result <- Response_json res;
       ret (Value result))
    (fun e =>
       match e with
       | TimeoutException _ =>
           respond 504
             (obj [("error", JStr ("Request timeout: " ++ str e ++
                                   ". RAG API is taking too long to respond."))])
       | HTTPStatusError _ response =>
           do error_response <-
              (if nonempty (httpx.text response) then Response_json response
               else ret (obj [("error", JStr (httpx.text response))]));
           respond (httpx.status_code response) error_response
       | Exception _ =>
           respond 500 (obj [("error", JStr (str e))])
       end).

(** ** The routes *)

(** The six operations, one per route of [app]. *)
Inductive operation : Type :=
| HealthCheck              (* GET  /                    *)
| IssueStreamingToken      (* POST /streaming_token     *)
| ListAllAvatars           (* GET  /avatars             *)
| ListInteractiveAvatars   (* GET  /interactive_avatars *)
| ListVoices               (* GET  /voices              *)
| Chat.                    (* POST /chat                *)

Definition handler (op : operation) (request : fastapi.Request) : Py returned :=
  match op with
  | HealthCheck => root
  | IssueStreamingToken => get_streaming_token
  | ListAllAvatars => get_avatars
  | ListInteractiveAvatars => get_interactive_avatars
  | ListVoices => get_voices
  | Chat => chat request
  end.

(** Serving one request: the handler starts with no outbound call made, and
    FastAPI renders what it returns. What comes back is the list of calls
    that reached the upstream and either the JSON response sent to the
    caller, or the exception that left the handler or the rendering: for
    that one the server's error middleware answers the caller with a
    plain-text 500 [Internal Server Error]. *)
Definition serve (op : operation) (request : fastapi.Request) (w : World)
  : list httpx.OutboundCall * result fastapi.JSONResponse :=
  (do x <- handler op request; serialize_response x) w [].

(** ** Vocabulary of the statements *)

(** A simulated upstream: it gives the same outcome to every call. *)
Definition upstream_replies (w : World) (o : httpx.outcome) : Prop :=
  forall c, send w c = o.

(** The request passes the validation of [chat] and its payload can be
    sent: [message] and [conversation_id] hold no NaN and no infinity. *)
Definition sendable (request : fastapi.Request) : Prop :=
  exists data message,
    fastapi.json request = Decoded (JObj data) /\
    data !! "message" = Some message /\
    truthy message = true /\
    json_compliant message = true /\
    json_compliant (default JNull (data !! "conversation_id")) = true.




(** The body of the chat call as the specification words it: the message,
    and the conversation id only when it is present and non-empty. *)
Definition spec_chat_body (message : string) (conversation_id : option string)
  : gmap string JSON :=
  match conversation_id with
  | Some (String a s) =>
      <["conversation_id" := JStr (String a s)]> {[ "message" := JStr message ]}
  | _ => {[ "message" := JStr message ]}
  end.






(** ** Simulated worlds and requests *)

Definition mock (o : httpx.outcome) : World :=
  {| HEYGEN_API_KEY := "test-key";
     send := fun _ => o;
     status_message := fun _ => "upstream status error";
     format_exc := fun e => "Traceback (most recent call last): " ++ str e |}.

(** A request whose body is the JSON object with the members [l]. *)
Definition json_request (l : list (string * JSON)) : fastapi.Request :=
  {| fastapi.json := Decoded (obj l) |}.

(** A request without a body, as the GET routes receive it. *)
Definition no_body : fastapi.Request :=
  {| fastapi.json := Malformed "Expecting value: line 1 column 1 (char 0)" |}.

Definition dquote : string := String "034"%char EmptyString.

(** The text [{"code": 42}] and the upstream answer that carries it. *)
Definition code_42_text : string :=
  "{" ++ dquote ++ "code" ++ dquote ++ ": 42}".

Definition upstream_code_42 (status : Z) : httpx.Response :=
  {| httpx.status_code := status;
     httpx.text := code_42_text;
     httpx.json := Decoded (obj [("code", JInt 42)]) |}.

(** The text [{"x": 1e400}] and the upstream answer that carries it: the
    number decodes to an infinity. *)
Definition upstream_overflow (status : Z) : httpx.Response :=
  {| httpx.status_code := status;
     httpx.text := "{" ++ dquote ++ "x" ++ dquote ++ ": 1e400}";
     httpx.json := Decoded (obj [("x", JFloat (S754_infinity false))]) |}.

(** An upstream answer with a plain-text body. *)
Definition upstream_text (status : Z) (t : string) : httpx.Response :=
  {| httpx.status_code := status;
     httpx.text := t;
     httpx.json := Malformed "Expecting value: line 1 column 1 (char 0)" |}.

(** ** Results by outcome

    The handlers in closed form; the lemmas of the next section prove that
    the handlers compute them. *)

(** The payload [chat] builds from the members of a validated body. *)
Definition chat_payload (data : gmap string JSON) : gmap string JSON :=
  let message := default JNull (data !! "message") in
  if truthy (default JNull (data !! "conversation_id"))
  then <["conversation_id" := default JNull (data !! "conversation_id")]>
         {[ "message" := message ]}
  else {[ "message" := message ]}.

(** Constructing or rendering a response with the given content: the
    response, or the [ValueError] of the encoder. *)
Definition rendered (status_code : Z) (content : JSON)
  : result fastapi.JSONResponse :=
  if json_compliant content then Returned (JSONResponse status_code content)
  else Raised out_of_range.

(** The 500 response of the generic [except Exception] clause, with or
    without the traceback. *)
Definition failure_response (w : World) (with_traceback : bool) (msg : string)
  : fastapi.JSONResponse :=
  if with_traceback then
    JSONResponse 500 (obj [("error", JStr msg);
                           ("traceback", JStr (format_exc w (Exception msg)))])
  else JSONResponse 500 (obj [("error", JStr msg)]).

Definition timeout_response (msg : string) : fastapi.JSONResponse :=
  JSONResponse 504 (obj [("error", JStr ("Request timeout: " ++ msg))]).

(** The result of a listing route, by the outcome of its call. *)
Definition listing_result (w : World) (with_traceback : bool) (o : httpx.outcome)
  : result fastapi.JSONResponse :=
  match o with
  | httpx.Responded r =>
      if httpx.is_success r then
        match httpx.json r with
        | Decoded v => rendered 200 v
        | Malformed msg => Returned (failure_response w with_traceback msg)
        end
      else Returned (JSONResponse (httpx.status_code r)
                       (obj [("error", JStr (httpx.text r))]))
  | httpx.TimedOut msg => Returned (timeout_response msg)
  | httpx.Failed msg => Returned (failure_response w with_traceback msg)
  end.

(** The result of [get_streaming_token], by the outcome of its call. *)
Definition streaming_token_result (w : World) (o : httpx.outcome)
  : result fastapi.JSONResponse :=
  match o with
  | httpx.Responded r =>
      if httpx.status_code r =? 200 then
        match httpx.json r with
        | Decoded (JObj d) => rendered 200 (JObj d)
        | Decoded v =>
            Returned (failure_response w true (str (attribute_error v "keys")))
        | Malformed msg => Returned (failure_response w true msg)
        end
      else
        Returned (JSONResponse (httpx.status_code r)
          (obj [("error", JStr (httpx.text r));
                ("status", JInt (httpx.status_code r));
                ("details", JStr "Check backend logs")]))
  | httpx.TimedOut msg => Returned (timeout_response msg)
  | httpx.Failed msg => Returned (failure_response w true msg)
  end.

(** The result of [chat] once its call is sent, by the outcome of the
    call. *)
Definition chat_result (o : httpx.outcome) : result fastapi.JSONResponse :=
  match o with
  | httpx.Responded r =>
      if httpx.is_success r then
        match httpx.json r with
        | Decoded v => rendered 200 v
        | Malformed msg => Returned (JSONResponse 500 (obj [("error", JStr msg)]))
        end
      else if nonempty (httpx.text r) then
        match httpx.json r with
        | Decoded v => rendered (httpx.status_code r) v
        | Malformed msg => Raised (Exception msg)
        end
      else Returned (JSONResponse (httpx.status_code r)
                       (obj [("error", JStr (httpx.text r))]))
  | httpx.TimedOut msg =>
      Returned (JSONResponse 504
        (obj [("error", JStr ("Request timeout: " ++ msg ++
                              ". RAG API is taking too long to respond."))]))
  | httpx.Failed msg => Returned (JSONResponse 500 (obj [("error", JStr msg)]))
  end.

(** [chat] after a body that passed validation: the payload is sent if it
    can be encoded, and the encoder's [ValueError] is answered 500
    otherwise. *)
Definition chat_validated (data : gmap string JSON) (w : World)
  : list httpx.OutboundCall * result fastapi.JSONResponse :=
  if json_compliant (JObj (chat_payload data)) then
    ([chat_call (chat_payload data)],
     chat_result (send w (chat_call (chat_payload data))))
  else ([], Returned (JSONResponse 500 (obj [("error", JStr (str out_of_range))]))).

(** Serving a request, in closed form: the calls made and the result, by
    the operation, the request body and the outcome of the call. *)
Definition served (op : operation) (request : fastapi.Request) (w : World)
  : list httpx.OutboundCall * result fastapi.JSONResponse :=
  match op with
  | HealthCheck => ((do x <- root; serialize_response x) w [])
  | IssueStreamingToken =>
      ([streaming_token_call w],
       streaming_token_result w (send w (streaming_token_call w)))
  | ListAllAvatars =>
      ([heygen_get_call w "v2/avatars"],
       listing_result w true (send w (heygen_get_call w "v2/avatars")))
  | ListInteractiveAvatars =>
      ([heygen_get_call w "v1/streaming/avatar.list"],
       listing_result w false
         (send w (heygen_get_call w "v1/streaming/avatar.list")))
  | ListVoices =>
      ([heygen_get_call w "v2/voices"],
       listing_result w false (send w (heygen_get_call w "v2/voices")))
  | Chat =>
      match fastapi.json request with
      | Malformed msg => ([], Returned (failure_response w false msg))
      | Decoded (JObj data) =>
          if truthy (default JNull (data !! "message")) then chat_validated data w
          else
            ([], Returned (JSONResponse 400
                             (obj [("error", JStr "Message is required")])))
      | Decoded v =>
          ([], Returned (failure_response w false (str (attribute_error v "get"))))
      end
  end.

(** The call [heygen_post] makes for [endpoint] with the payload [data]. *)
Definition heygen_post_call (w : World) (endpoint : string) (data : option JSON)
  : httpx.OutboundCall :=
  {| httpx.method := httpx.POST;
     httpx.url := BASE_URL ++ "/" ++ endpoint;
     httpx.headers := [("X-Api-Key", HEYGEN_API_KEY w);
                       ("Content-Type", "application/json")];
     httpx.body := data;
     httpx.timeout := 60 |}.

(** What a helper does with the outcome of a call that was sent: it returns
    the decoded body of a success and raises in every other case. *)
Definition helper_result (w : World) (o : httpx.outcome) : result JSON :=
  match o with
  | httpx.Responded r =>
      if httpx.is_success r then
        match httpx.json r with
        | Decoded v => Returned v
        | Malformed msg => Raised (Exception msg)
        end
      else Raised (HTTPStatusError (status_message w r) r)
  | httpx.TimedOut msg => Raised (TimeoutException msg)
  | httpx.Failed msg => Raised (Exception msg)
  end.

(** ** JSON values that can be encoded *)

Lemma json_compliant_object (d : gmap string JSON) :
  json_compliant (JObj d) = true <->
  forall k v, d !! k = Some v -> json_compliant v = true.
Proof.
  cbn [json_compliant].
  apply (map_fold_weak_ind
           (fun (b : bool) (m : gmap string JSON) =>
              b = true <-> forall k v, m !! k = Some v -> json_compliant v = true)).
  - split; [|reflexivity]. intros _ k v H. rewrite lookup_empty in H. discriminate H.
  - intros i x m b Hi IH. rewrite andb_true_iff, IH. split.
    + intros [Hx Hm] k v Hk.
      destruct (decide (i = k)) as [->|Hne].
      * rewrite lookup_insert_eq in Hk. injection Hk as <-. exact Hx.
      * rewrite lookup_insert_ne in Hk by exact Hne. exact (Hm k v Hk).
    + intros H. split.
      * apply (H i). apply lookup_insert_eq.
      * intros k v Hk. apply (H k).
        rewrite lookup_insert_ne; [exact Hk|]. intros ->. rewrite Hi in Hk.
        discriminate Hk.
Qed.

Lemma falsy_compliant v : truthy v = false -> json_compliant v = true.
Proof.
  destruct v as [| | |x| |l|d]; try reflexivity.
  - destruct x; cbn; try reflexivity; discriminate.
  - destruct l; [reflexivity | discriminate].
  - cbn [truthy]. intros H. apply negb_false_iff, Nat.eqb_eq in H.
    apply map_size_empty_inv in H. subst d. reflexivity.
Qed.

Lemma chat_payload_compliant (data : gmap string JSON) :
  json_compliant (JObj (chat_payload data)) = true <->
  json_compliant (default JNull (data !! "message")) = true /\
  json_compliant (default JNull (data !! "conversation_id")) = true.
Proof.
  rewrite json_compliant_object. unfold chat_payload.
  destruct (truthy (default JNull (data !! "conversation_id"))) eqn:Hcid.
  - split.
    + intros H. split.
      * apply (H "message"). reflexivity.
      * apply (H "conversation_id"). apply lookup_insert_eq.
    + intros [Hm Hc] k v Hk.
      destruct (decide ("conversation_id" = k)) as [<-|Hne].
      * rewrite lookup_insert_eq in Hk. injection Hk as <-. exact Hc.
      * rewrite lookup_insert_ne in Hk by exact Hne.
        apply lookup_singleton_Some in Hk. destruct Hk as [_ <-]. exact Hm.
  - split.
    + intros H. split.
      * apply (H "message"). apply lookup_singleton_eq.
      * exact (falsy_compliant _ Hcid).
    + intros [Hm _] k v Hk.
      apply lookup_singleton_Some in Hk. destruct Hk as [_ <-]. exact Hm.
Qed.

(** ** How the helpers and handlers run *)

Lemma upstream_replies_mock o : upstream_replies (mock o) o.
Proof. intros c. reflexivity. Qed.

Lemma respond_compliant status_code content :
  json_compliant content = true ->
  respond status_code content =
  ret (Response (JSONResponse status_code content)).
Proof.
  intros H. unfold respond, JSONResponse_init, bind. rewrite H. reflexivity.
Qed.

Lemma heygen_get_run endpoint w log :
  heygen_get endpoint w log =
  ((log ++ [heygen_get_call w endpoint])%list,
   match send w (heygen_get_call w endpoint) with
   | httpx.Responded r =>
       if httpx.is_success r then
         match httpx.json r with
         | Decoded v => Returned v
         | Malformed msg => Raised (Exception msg)
         end
       else Raised (HTTPStatusError (status_message w r) r)
   | httpx.TimedOut msg => Raised (TimeoutException msg)
   | httpx.Failed msg => Raised (Exception msg)
   end).
Proof.
  unfold heygen_get, bind, ask, client_send, raise_for_status, Response_json.
  cbn [encodable httpx.body heygen_get_call].
  destruct (send w (heygen_get_call w endpoint)) as [r|msg|msg]; try reflexivity.
  unfold bind, ask, ret, raise.
  destruct (httpx.is_success r); [|reflexivity].
  destruct (httpx.json r); reflexivity.
Qed.

Lemma listing_run endpoint (with_traceback : bool) (h : Py returned) w :
  h = try_except
        (do result <- heygen_get endpoint; ret (Value result))
        (fun e =>
           match e with
           | TimeoutException _ =>
               respond 504 (obj [("error", JStr ("Request timeout: " ++ str e))])
           | HTTPStatusError _ response =>
               respond (httpx.status_code response)
                 (obj [("error", JStr (httpx.text response))])
           | Exception _ =>
               if with_traceback then
                 do w <- ask;
                 respond 500
                   (obj [("error", JStr (str e));
                         ("traceback", JStr (format_exc w e))])
               else respond 500 (obj [("error", JStr (str e))])
           end) ->
  (do x <- h; serialize_response x) w [] =
  ([heygen_get_call w endpoint],
   listing_result w with_traceback (send w (heygen_get_call w endpoint))).
Proof.
  intros ->. unfold try_except, bind at 1 2.
  rewrite heygen_get_run. unfold listing_result.
  destruct (send w _) as [r|msg|msg].
  - destruct (httpx.is_success r).
    + destruct (httpx.json r) as [msg|v].
      * destruct with_traceback; reflexivity.
      * cbn. unfold JSONResponse_init, rendered.
        destruct (json_compliant v); reflexivity.
    + reflexivity.
  - reflexivity.
  - destruct with_traceback; reflexivity.
Qed.

Lemma get_avatars_run w request :
  serve ListAllAvatars request w =
  ([heygen_get_call w "v2/avatars"],
   listing_result w true (send w (heygen_get_call w "v2/avatars"))).
Proof. apply (listing_run "v2/avatars" true). reflexivity. Qed.

Lemma get_interactive_avatars_run w request :
  serve ListInteractiveAvatars request w =
  ([heygen_get_call w "v1/streaming/avatar.list"],
   listing_result w false
     (send w (heygen_get_call w "v1/streaming/avatar.list"))).
Proof. apply (listing_run "v1/streaming/avatar.list" false). reflexivity. Qed.

Lemma get_voices_run w request :
  serve ListVoices request w =
  ([heygen_get_call w "v2/voices"],
   listing_result w false (send w (heygen_get_call w "v2/voices"))).
Proof. apply (listing_run "v2/voices" false). reflexivity. Qed.

Lemma get_streaming_token_run w request :
  serve IssueStreamingToken request w =
  ([streaming_token_call w],
   streaming_token_result w (send w (streaming_token_call w))).
Proof.
  unfold serve, handler, get_streaming_token, try_except, bind, ask, client_send.
  cbn [encodable httpx.body streaming_token_call].
  unfold streaming_token_result.
  destruct (send w _) as [r|msg|msg]; try reflexivity.
  destruct (httpx.status_code r =? 200); cbn [negb].
  - unfold Response_json.
    destruct (httpx.json r) as [msg|v]; [reflexivity|].
    destruct v; try reflexivity.
    cbn. unfold JSONResponse_init, rendered.
    destruct (json_compliant (JObj d)); reflexivity.
  - unfold Response_json.
    destruct (httpx.json r); reflexivity.
Qed.

Lemma root_run w request :
  exists v, serve HealthCheck request w = ([], Returned (fastapi.default_response v)).
Proof. eexists. reflexivity. Qed.

Lemma chat_undecodable w request msg :
  fastapi.json request = Malformed msg ->
  serve Chat request w =
  ([], Returned (JSONResponse 500 (obj [("error", JStr msg)]))).
Proof.
  intros Hreq.
  unfold serve, handler, chat, try_except, bind, Request_json.
  rewrite Hreq. reflexivity.
Qed.

Lemma chat_not_an_object w request v :
  fastapi.json request = Decoded v ->
  (forall data, v <> JObj data) ->
  serve Chat request w =
  ([], Returned (JSONResponse 500
         (obj [("error", JStr (str (attribute_error v "get")))]))).
Proof.
  intros Hreq Hv.
  unfold serve, handler, chat, try_except, bind at 1 2 3, Request_json.
  rewrite Hreq. cbn [ret dict_get].
  destruct v; try reflexivity.
  exfalso. exact (Hv d eq_refl).
Qed.

Lemma chat_rejects w request data :
  fastapi.json request = Decoded (JObj data) ->
  truthy (default JNull (data !! "message")) = false ->
  serve Chat request w =
  ([], Returned (JSONResponse 400 (obj [("error", JStr "Message is required")]))).
Proof.
  intros Hreq Hfalsy.
  unfold serve, handler, chat, try_except, bind at 1 2 3, Request_json.
  rewrite Hreq. cbn [ret dict_get]. rewrite Hfalsy. reflexivity.
Qed.

Lemma chat_run w request data :
  fastapi.json request = Decoded (JObj data) ->
  truthy (default JNull (data !! "message")) = true ->
  serve Chat request w = chat_validated data w.
Proof.
  intros Hreq Htruthy.
  unfold serve, handler, chat, try_except, bind at 1 2 3, Request_json.
  rewrite Hreq. cbn [ret dict_get]. rewrite Htruthy. cbn [negb].
  unfold chat_validated, chat_payload.
  destruct (truthy (default JNull (data !! "conversation_id"))) eqn:Hcid.
  - destruct (data !! "conversation_id") as [v|] eqn:Hv; [|discriminate Hcid].
    unfold bind, dict_get, dict_getitem, ret. rewrite Hv.
    cbn [default] in Hcid |- *. rewrite Hcid.
    unfold client_send. cbn [encodable httpx.body chat_call].
    destruct (json_compliant (JObj _)); [|reflexivity].
    destruct (send w _) as [r|msg|msg]; try reflexivity.
    unfold raise_for_status, bind, ask, ret, raise, Response_json, chat_result.
    destruct (httpx.is_success r).
    + destruct (httpx.json r) as [msg|v']; [reflexivity|].
      cbn. unfold JSONResponse_init, rendered.
      destruct (json_compliant v'); reflexivity.
    + cbn [nonempty]. destruct (nonempty (httpx.text r)); [|reflexivity].
      destruct (httpx.json r) as [msg|v']; [reflexivity|].
      cbn. unfold respond, JSONResponse_init, rendered, bind.
      destruct (json_compliant v'); reflexivity.
  - unfold bind, dict_get, ret. rewrite Hcid.
    unfold client_send. cbn [encodable httpx.body chat_call].
    destruct (json_compliant (JObj _)); [|reflexivity].
    destruct (send w _) as [r|msg|msg]; try reflexivity.
    unfold raise_for_status, bind, ask, ret, raise, Response_json, chat_result.
    destruct (httpx.is_success r).
    + destruct (httpx.json r) as [msg|v']; [reflexivity|].
      cbn. unfold JSONResponse_init, rendered.
      destruct (json_compliant v'); reflexivity.
    + cbn [nonempty]. destruct (nonempty (httpx.text r)); [|reflexivity].
      destruct (httpx.json r) as [msg|v']; [reflexivity|].
      cbn. unfold respond, JSONResponse_init, rendered, bind.
      destruct (json_compliant v'); reflexivity.
Qed.

Lemma serve_served op request w : serve op request w = served op request w.
Proof.
  destruct op; cbn [served].
  - reflexivity.
  - apply get_streaming_token_run.
  - apply get_avatars_run.
  - apply get_interactive_avatars_run.
  - apply get_voices_run.
  - destruct (fastapi.json request) as [msg|v] eqn:Hreq.
    + exact (chat_undecodable w request msg Hreq).
    + destruct v;
        try (apply (chat_not_an_object w request _ Hreq); intros data H; discriminate H).
      destruct (truthy (default JNull (d !! "message"))) eqn:Htruthy.
      * exact (chat_run w request d Hreq Htruthy).
      * exact (chat_rejects w request d Hreq Htruthy).
Qed.

Lemma sendable_iff request :
  sendable request <->
  exists data,
    fastapi.json request = Decoded (JObj data) /\
    truthy (default JNull (data !! "message")) = true /\
    json_compliant (JObj (chat_payload data)) = true.
Proof.
  split.
  - intros (data & message & Hreq & Hmsg & Htruthy & Hm & Hc).
    exists data. split; [exact Hreq|]. rewrite Hmsg. split; [exact Htruthy|].
    apply chat_payload_compliant. rewrite Hmsg. split; assumption.
  - intros (data & Hreq & Htruthy & Hpayload).
    apply chat_payload_compliant in Hpayload. destruct Hpayload as [Hm Hc].
    destruct (data !! "message") as [message|] eqn:Hmsg; [|discriminate Htruthy].
    exists data, message. repeat split; assumption.
Qed.

(** A request that can be sent is answered by the outcome of its call. *)
Lemma chat_sent w request :
  sendable request ->
  exists data,
    fastapi.json request = Decoded (JObj data) /\
    truthy (default JNull (data !! "message")) = true /\
    serve Chat request w =
    ([chat_call (chat_payload data)],
     chat_result (send w (chat_call (chat_payload data)))).
Proof.
  intros Hs. apply sendable_iff in Hs. destruct Hs as (data & Hreq & Htruthy & Hp).
  exists data. split; [exact Hreq|]. split; [exact Htruthy|].
  rewrite (chat_run w request data Hreq Htruthy). unfold chat_validated.
  rewrite Hp. reflexivity.
Qed.

Lemma sendable_hi : sendable (json_request [("message", JStr "hi")]).
Proof.
  exists (list_to_map [("message", JStr "hi")]), (JStr "hi"). repeat split.
Qed.

(** ** Chat validation *)

(** C3: a Chat request whose [message] is absent or the empty string is
    answered 400 with the body [{"error": "Message is required"}], and no
    outbound call is made. *)
Theorem chat_message_required w request data :
  fastapi.json request = Decoded (JObj data) ->
  data !! "message" = None \/ data !! "message" = Some (JStr EmptyString) ->
  serve Chat request w =
  ([], Returned (JSONResponse 400 (obj [("error", JStr "Message is required")]))).
Proof.
  intros Hreq Hmsg. apply (chat_rejects w request data Hreq).
  destruct Hmsg as [-> | ->]; reflexivity.
Qed.

Lemma chat_message_required_witness :
  serve Chat (json_request [("message", JStr EmptyString)])
        (mock (httpx.Failed "unreachable")) =
  ([], Returned (JSONResponse 400 (obj [("error", JStr "Message is required")])))
  /\
  serve Chat (json_request [("conversation_id", JStr "abc")])
        (mock (httpx.Failed "unreachable")) =
  ([], Returned (JSONResponse 400 (obj [("error", JStr "Message is required")]))).
Proof.
  split.
  - apply (chat_message_required _ _ (list_to_map [("message", JStr EmptyString)])).
    + reflexivity.
    + right. reflexivity.
  - apply (chat_message_required _ _ (list_to_map [("conversation_id", JStr "abc")])).
    + reflexivity.
    + left. reflexivity.
Defined.

(** C9: a Chat request whose body does not parse as JSON is answered 500
    with the body [{"error": <description of the failure>}], the shape of a
    generic failure and not the 400 of the validation, and no outbound call
    is made. *)
Theorem chat_unparseable_body w request msg :
  fastapi.json request = Malformed msg ->
  serve Chat request w =
  ([], Returned (JSONResponse 500 (obj [("error", JStr msg)]))) /\
  JSONResponse 500 (obj [("error", JStr msg)]) <>
  JSONResponse 400 (obj [("error", JStr "Message is required")]).
Proof.
  intros Hreq. split.
  - exact (chat_undecodable w request msg Hreq).
  - intros H. apply (f_equal fastapi.status_code) in H. discriminate H.
Qed.

Lemma chat_unparseable_body_witness :
  serve Chat {| fastapi.json := Malformed "Expecting value" |}
        (mock (httpx.Failed "unreachable")) =
  ([], Returned (JSONResponse 500 (obj [("error", JStr "Expecting value")]))) /\
  JSONResponse 500 (obj [("error", JStr "Expecting value")]) <>
  JSONResponse 400 (obj [("error", JStr "Message is required")]).
Proof. apply chat_unparseable_body. reflexivity. Defined.

(** C10: the validation of Chat rejects every falsy value bound to
    [message], among them [null], [false], [0] and the empty string: each is
    answered 400 with [{"error": "Message is required"}] and no outbound call
    is made. *)
Theorem chat_rejects_falsy_message w request data v :
  fastapi.json request = Decoded (JObj data) ->
  data !! "message" = Some v ->
  truthy v = false \/ v ∈ [JNull; JBool false; JInt 0; JStr EmptyString] ->
  serve Chat request w =
  ([], Returned (JSONResponse 400 (obj [("error", JStr "Message is required")]))).
Proof.
  intros Hreq Hmsg Hfalsy. apply (chat_rejects w request data Hreq).
  rewrite Hmsg. cbn.
  destruct Hfalsy as [H | H]; [exact H|].
  repeat (apply elem_of_cons in H; destruct H as [-> | H]; [reflexivity|]).
  apply elem_of_nil in H. destruct H.
Qed.

Lemma chat_rejects_falsy_message_witness :
  let rejected v :=
    serve Chat (json_request [("message", v)]) (mock (httpx.Failed "unreachable")) =
    ([], Returned (JSONResponse 400 (obj [("error", JStr "Message is required")]))) in
  rejected JNull /\ rejected (JBool false) /\ rejected (JInt 0) /\
  rejected (JStr EmptyString) /\ rejected (JFloat (S754_zero true)) /\
  rejected (JArr []) /\ rejected (JObj ∅).
Proof.
  intros rejected. unfold rejected.
  split; [|split; [|split; [|split; [|split; [|split]]]]].
  - apply (chat_rejects_falsy_message _ _ (list_to_map [("message", JNull)]) JNull);
      [reflexivity | reflexivity | right; set_solver].
  - apply (chat_rejects_falsy_message _ _
             (list_to_map [("message", JBool false)]) (JBool false));
      [reflexivity | reflexivity | right; set_solver].
  - apply (chat_rejects_falsy_message _ _ (list_to_map [("message", JInt 0)]) (JInt 0));
      [reflexivity | reflexivity | right; set_solver].
  - apply (chat_rejects_falsy_message _ _
             (list_to_map [("message", JStr EmptyString)]) (JStr EmptyString));
      [reflexivity | reflexivity | right; set_solver].
  - apply (chat_rejects_falsy_message _ _
             (list_to_map [("message", JFloat (S754_zero true))])
             (JFloat (S754_zero true)));
      [reflexivity | reflexivity | left; reflexivity].
  - apply (chat_rejects_falsy_message _ _
             (list_to_map [("message", JArr [])]) (JArr []));
      [reflexivity | reflexivity | left; reflexivity].
  - apply (chat_rejects_falsy_message _ _
             (list_to_map [("message", JObj ∅)]) (JObj ∅));
      [reflexivity | reflexivity | left; reflexivity].
Defined.

(** C5: for a valid Chat request the body of the outbound call is
    [{"message": m}], extended with [conversation_id] only when the inbound
    one is present and non-empty. *)
Theorem chat_outbound_body w request data m cid :
  fastapi.json request = Decoded (JObj data) ->
  data !! "message" = Some (JStr m) ->
  m <> EmptyString ->
  data !! "conversation_id" = JStr <$> cid ->
  fst (serve Chat request w) = [chat_call (spec_chat_body m cid)] /\
  (spec_chat_body m cid !! "conversation_id" = None <->
   cid = None \/ cid = Some EmptyString).
Proof.
  intros Hreq Hmsg Hm Hcid. split.
  - rewrite (chat_run w request data Hreq).
    + unfold chat_validated.
      assert (Hp : json_compliant (JObj (chat_payload data)) = true).
      { apply chat_payload_compliant. rewrite Hmsg, Hcid.
        split; [reflexivity|]. destruct cid; reflexivity. }
      rewrite Hp. cbn [fst]. unfold chat_payload. rewrite Hmsg, Hcid.
      destruct cid as [[|a c]|]; reflexivity.
    + rewrite Hmsg. destruct m; [contradiction|reflexivity].
  - destruct cid as [[|a c]|]; cbn.
    + split; [intros _; right; reflexivity | reflexivity].
    + rewrite lookup_insert_eq. split; [discriminate|].
      intros [H | H]; discriminate H.
    + split; [intros _; left; reflexivity | reflexivity].
Qed.

Lemma chat_outbound_body_witness :
  httpx.body <$>
    fst (serve Chat (json_request [("message", JStr "hi");
                                   ("conversation_id", JStr "abc")])
               (mock (httpx.Responded (upstream_code_42 200)))) =
  [Some (obj [("message", JStr "hi"); ("conversation_id", JStr "abc")])]
  /\
  httpx.body <$>
    fst (serve Chat (json_request [("message", JStr "hi")])
               (mock (httpx.Responded (upstream_code_42 200)))) =
  [Some (obj [("message", JStr "hi")])].
Proof.
  split.
  - rewrite (proj1 (chat_outbound_body
               (mock (httpx.Responded (upstream_code_42 200)))
               (json_request [("message", JStr "hi"); ("conversation_id", JStr "abc")])
               (list_to_map [("message", JStr "hi"); ("conversation_id", JStr "abc")])
               "hi" (Some "abc") eq_refl eq_refl ltac:(discriminate) eq_refl)).
    reflexivity.
  - rewrite (proj1 (chat_outbound_body
               (mock (httpx.Responded (upstream_code_42 200)))
               (json_request [("message", JStr "hi")])
               (list_to_map [("message", JStr "hi")])
               "hi" None eq_refl eq_refl ltac:(discriminate) eq_refl)).
    reflexivity.
Defined.

(** ** Timeouts *)

(** C4: every operation that calls an upstream does so with a fixed client
    timeout, 60 seconds for the avatar provider and 120 seconds for Chat, and
    when the client gives up waiting the response is 504 with a JSON body
    whose [error] member describes the timeout. For Chat the call is made
    for a request that passes validation and whose payload can be
    encoded. *)
Theorem timeout_gives_504 op w request msg :
  op <> HealthCheck ->
  (op = Chat -> sendable request) ->
  upstream_replies w (httpx.TimedOut msg) ->
  exists c,
    serve op request w =
    ([c], Returned (JSONResponse 504
            (obj [("error",
                   JStr match op with
                        | Chat => "Request timeout: " ++ msg ++
                                  ". RAG API is taking too long to respond."
                        | _ => "Request timeout: " ++ msg
                        end)]))) /\
    httpx.timeout c = match op with Chat => 120 | _ => 60 end.
Proof.
  intros Hop Hsend Hup. destruct op; try contradiction.
  - eexists. rewrite get_streaming_token_run, Hup.
    split; reflexivity.
  - eexists. rewrite get_avatars_run, Hup.
    split; reflexivity.
  - eexists. rewrite get_interactive_avatars_run, Hup.
    split; reflexivity.
  - eexists. rewrite get_voices_run, Hup.
    split; reflexivity.
  - destruct (chat_sent w request (Hsend eq_refl)) as (data & _ & _ & Hrun).
    eexists. rewrite Hrun, Hup. split; reflexivity.
Qed.

Lemma timeout_gives_504_witness :
  (exists c,
     serve Chat (json_request [("message", JStr "hi")])
           (mock (httpx.TimedOut "ReadTimeout")) =
     ([c], Returned (JSONResponse 504
             (obj [("error",
                    JStr "Request timeout: ReadTimeout. RAG API is taking too long to respond.")])))
     /\ httpx.timeout c = 120)
  /\
  (exists c,
     serve ListVoices no_body (mock (httpx.TimedOut "ReadTimeout")) =
     ([c], Returned (JSONResponse 504
             (obj [("error", JStr "Request timeout: ReadTimeout")])))
     /\ httpx.timeout c = 60).
Proof.
  split.
  - apply (timeout_gives_504 Chat (mock (httpx.TimedOut "ReadTimeout"))
             (json_request [("message", JStr "hi")]) "ReadTimeout").
    + discriminate.
    + intros _. exact sendable_hi.
    + apply upstream_replies_mock.
  - apply (timeout_gives_504 ListVoices (mock (httpx.TimedOut "ReadTimeout"))
             no_body "ReadTimeout").
    + discriminate.
    + discriminate.
    + apply upstream_replies_mock.
Defined.

(** ** Transport failures *)



(** ** The token route *)

(** C8: IssueStreamingToken treats every upstream status other than 200,
    other success statuses included, as an error: it answers with that
    status and the body
    [{"error": <raw text>, "status": <status>, "details": "Check backend logs"}],
    whatever the upstream body is. *)
Theorem streaming_token_non_200 w request r :
  upstream_replies w (httpx.Responded r) ->
  httpx.status_code r <> 200 ->
  serve IssueStreamingToken request w =
  ([streaming_token_call w],
   Returned (JSONResponse (httpx.status_code r)
               (obj [("error", JStr (httpx.text r));
                     ("status", JInt (httpx.status_code r));
                     ("details", JStr "Check backend logs")]))).
Proof.
  intros Hup Hstatus.
  rewrite get_streaming_token_run, Hup. cbn.
  destruct (Z.eqb_spec (httpx.status_code r) 200) as [H | H]; [contradiction|].
  reflexivity.
Qed.

Lemma streaming_token_non_200_witness :
  serve IssueStreamingToken no_body (mock (httpx.Responded (upstream_code_42 201))) =
  ([streaming_token_call (mock (httpx.Responded (upstream_code_42 201)))],
   Returned (JSONResponse 201
               (obj [("error", JStr code_42_text);
                     ("status", JInt 201);
                     ("details", JStr "Check backend logs")])))
  /\
  serve IssueStreamingToken no_body (mock (httpx.Responded (upstream_text 204 EmptyString))) =
  ([streaming_token_call (mock (httpx.Responded (upstream_text 204 EmptyString)))],
   Returned (JSONResponse 204
               (obj [("error", JStr EmptyString);
                     ("status", JInt 204);
                     ("details", JStr "Check backend logs")]))).
Proof.
  split.
  - apply (streaming_token_non_200 (mock (httpx.Responded (upstream_code_42 201)))
             no_body (upstream_code_42 201)).
    + apply upstream_replies_mock.
    + discriminate.
  - apply (streaming_token_non_200
             (mock (httpx.Responded (upstream_text 204 EmptyString)))
             no_body (upstream_text 204 EmptyString)).
    + apply upstream_replies_mock.
    + discriminate.
Defined.

(** ** Upstream errors *)






(** ** Every outcome is answered *)







(** ** Success *)




(** ** What the routes never do *)

(** X1: no operation retries or fans out: whatever the request and whatever
    the upstream does, at most one outbound call is made. *)
Theorem at_most_one_outbound_call op request w :
  (length (fst (serve op request w)) <= 1)%nat.
Proof.
  destruct op; try (rewrite serve_served; cbn; lia).
  { destruct (root_run w request) as [v ->]. cbn. lia. }
  rewrite serve_served. cbn [served].
  destruct (fastapi.json request) as [msg|v]; [cbn; lia|].
  destruct v; try (cbn; lia).
  destruct (truthy (default JNull (d !! "message"))); [|cbn; lia].
  unfold chat_validated.
  destruct (json_compliant (JObj (chat_payload d))); cbn [fst length]; lia.
Qed.

(** X2: an operation makes no outbound call exactly when it is the health
    check, or Chat with a request that cannot be sent: its body is not
    JSON, not an object, has no truthy [message], or its payload holds NaN
    or an infinity. *)
Theorem no_outbound_call_iff op request w :
  fst (serve op request w) = [] <->
  op = HealthCheck \/ (op = Chat /\ ~ sendable request).
Proof.
  rewrite serve_served. destruct op; cbn [served fst].
  - split; [intros _; left; reflexivity | reflexivity].
  - split; [discriminate | intros [H | [H _]]; discriminate H].
  - split; [discriminate | intros [H | [H _]]; discriminate H].
  - split; [discriminate | intros [H | [H _]]; discriminate H].
  - split; [discriminate | intros [H | [H _]]; discriminate H].
  - rewrite sendable_iff.
    destruct (fastapi.json request) as [msg|v] eqn:Hreq; cbn [fst].
    + split; [|reflexivity]. intros _. right. split; [reflexivity|].
      intros (data & H & _). discriminate H.
    + destruct v; cbn [fst];
        try (split; [|reflexivity]; intros _; right; split; [reflexivity|];
             intros (data & H & _); discriminate H).
      destruct (truthy (default JNull (d !! "message"))) eqn:Htruthy; cbn [fst].
      * unfold chat_validated.
        destruct (json_compliant (JObj (chat_payload d))) eqn:Hp; cbn [fst].
        -- split; [discriminate|]. intros [H | [_ H]]; [discriminate H|].
           exfalso. apply H. exists d. repeat split; assumption.
        -- split; [|reflexivity]. intros _. right. split; [reflexivity|].
           intros (data & H & _ & Hp'). injection H as <-. rewrite Hp in Hp'.
           discriminate Hp'.
      * split; [|reflexivity]. intros _. right. split; [reflexivity|].
        intros (data & H & Ht & _). injection H as <-. rewrite Htruthy in Ht.
        discriminate Ht.
Qed.

Lemma chat_calls request w c :
  c ∈ fst (served Chat request w) ->
  exists data, c = chat_call (chat_payload data).
Proof.
  cbn [served].
  destruct (fastapi.json request) as [msg|v]; cbn [fst].
  { intros H. apply elem_of_nil in H. destruct H. }
  destruct v; cbn [fst]; try (intros H; apply elem_of_nil in H; destruct H).
  destruct (truthy (default JNull (d !! "message"))); cbn [fst].
  2:{ intros H. apply elem_of_nil in H. destruct H. }
  unfold chat_validated.
  destruct (json_compliant (JObj (chat_payload d))); cbn [fst].
  - intros H. apply list_elem_of_singleton in H. exists d. exact H.
  - intros H. apply elem_of_nil in H. destruct H.
Qed.

(** X3: the API key goes to the avatar provider and nowhere else. Every call
    of an avatar operation goes to a URL under [BASE_URL], carries the
    [X-Api-Key] header with the configured key and has no body; the call of
    Chat goes to [RAG_API_URL] with the content type as its only header. *)
Theorem api_key_only_to_avatar_provider op request w c :
  c ∈ fst (serve op request w) ->
  match op with
  | Chat =>
      httpx.url c = RAG_API_URL /\
      httpx.headers c = [("Content-Type", "application/json")]
  | _ =>
      String.prefix BASE_URL (httpx.url c) = true /\
      ("X-Api-Key", HEYGEN_API_KEY w) ∈ httpx.headers c /\
      httpx.body c = None
  end.
Proof.
  destruct op; [destruct (root_run w request) as [v ->] | rewrite serve_served ..].
  - cbn. intros H. apply elem_of_nil in H. destruct H.
  - cbn [served fst]. intros H. apply list_elem_of_singleton in H. subst c.
    split; [reflexivity|]. split; [|reflexivity]. cbn. set_solver.
  - cbn [served fst]. intros H. apply list_elem_of_singleton in H. subst c.
    split; [reflexivity|]. split; [|reflexivity]. cbn. set_solver.
  - cbn [served fst]. intros H. apply list_elem_of_singleton in H. subst c.
    split; [reflexivity|]. split; [|reflexivity]. cbn. set_solver.
  - cbn [served fst]. intros H. apply list_elem_of_singleton in H. subst c.
    split; [reflexivity|]. split; [|reflexivity]. cbn. set_solver.
  - intros H. destruct (chat_calls request w c H) as [data ->].
    split; reflexivity.
Qed.

Lemma api_key_only_to_avatar_provider_witness :
  (httpx.url (chat_call {[ "message" := JStr "hi" ]}) = RAG_API_URL /\
   httpx.headers (chat_call {[ "message" := JStr "hi" ]}) =
   [("Content-Type", "application/json")])
  /\
  (String.prefix BASE_URL
     (httpx.url (heygen_get_call (mock (httpx.Failed "down")) "v2/voices")) = true /\
   ("X-Api-Key", "test-key") ∈
     httpx.headers (heygen_get_call (mock (httpx.Failed "down")) "v2/voices") /\
   httpx.body (heygen_get_call (mock (httpx.Failed "down")) "v2/voices") = None).
Proof.
  split.
  - apply (api_key_only_to_avatar_provider Chat
             (json_request [("message", JStr "hi")]) (mock (httpx.Failed "down"))).
    vm_compute. apply list_elem_of_here.
  - apply (api_key_only_to_avatar_provider ListVoices no_body
             (mock (httpx.Failed "down"))).
    vm_compute. apply list_elem_of_here.
Defined.

(** ** Chat beyond the typed request *)

(** X4: when [message] is truthy and neither [message] nor
    [conversation_id] holds NaN or an infinity, Chat forwards [message] as
    it is, whatever its JSON type, adds [conversation_id] as it is when it
    is truthy, and forwards no other member of the inbound body. *)
Theorem chat_forwards_two_members w request data :
  fastapi.json request = Decoded (JObj data) ->
  truthy (default JNull (data !! "message")) = true ->
  json_compliant (default JNull (data !! "message")) = true ->
  json_compliant (default JNull (data !! "conversation_id")) = true ->
  exists payload : gmap string JSON,
    fst (serve Chat request w) = [chat_call payload] /\
    payload !! "message" = data !! "message" /\
    payload !! "conversation_id" =
      (if truthy (default JNull (data !! "conversation_id"))
       then data !! "conversation_id" else None) /\
    forall k, k <> "message" -> k <> "conversation_id" -> payload !! k = None.
Proof.
  intros Hreq Htruthy Hm Hc. exists (chat_payload data).
  split.
  { rewrite (chat_run w request data Hreq Htruthy). unfold chat_validated.
    rewrite (proj2 (chat_payload_compliant data) (conj Hm Hc)). reflexivity. }
  unfold chat_payload.
  destruct (data !! "message") as [message|] eqn:Hmsg; [|discriminate Htruthy].
  destruct (data !! "conversation_id") as [cid|] eqn:Hcid; cbn.
  - destruct (truthy cid); repeat split.
    + intros k Hk1 Hk2.
      rewrite lookup_insert_ne by congruence.
      apply lookup_singleton_ne. congruence.
    + intros k Hk1 Hk2. apply lookup_singleton_ne. congruence.
  - repeat split.
    intros k Hk1 Hk2. apply lookup_singleton_ne. congruence.
Qed.

Lemma chat_forwards_two_members_witness :
  exists payload : gmap string JSON,
    fst (serve Chat
           (json_request [("message", JInt 7);
                          ("conversation_id", JArr [JInt 1]);
                          ("user", JStr "root")])
           (mock (httpx.Failed "down"))) = [chat_call payload] /\
    payload !! "message" = Some (JInt 7) /\
    payload !! "conversation_id" = Some (JArr [JInt 1]) /\
    forall k, k <> "message" -> k <> "conversation_id" -> payload !! k = None.
Proof.
  destruct (chat_forwards_two_members (mock (httpx.Failed "down"))
              (json_request [("message", JInt 7);
                             ("conversation_id", JArr [JInt 1]);
                             ("user", JStr "root")])
              (list_to_map [("message", JInt 7);
                            ("conversation_id", JArr [JInt 1]);
                            ("user", JStr "root")])
              eq_refl eq_refl eq_refl eq_refl)
    as (payload & Hcall & Hmsg & Hcid & Hrest).
  exists payload.
  split; [exact Hcall|]. split; [exact Hmsg|]. split; [exact Hcid | exact Hrest].
Defined.



(** X6: a Chat request whose body is JSON but not an object (an array, a
    string, a number, [null]) is answered 500 with the text of the
    [AttributeError] of [data.get], and no outbound call is made. *)
Theorem chat_body_not_an_object w request v :
  fastapi.json request = Decoded v ->
  (forall data, v <> JObj data) ->
  serve Chat request w =
  ([], Returned (JSONResponse 500
         (obj [("error",
                JStr ("'" ++ type_name v ++ "' object has no attribute 'get'"))]))).
Proof.
  intros Hreq Hv. exact (chat_not_an_object w request v Hreq Hv).
Qed.

Lemma chat_body_not_an_object_witness :
  serve Chat {| fastapi.json := Decoded JNull |} (mock (httpx.Failed "down")) =
  ([], Returned (JSONResponse 500
         (obj [("error", JStr "'NoneType' object has no attribute 'get'")])))
  /\
  serve Chat {| fastapi.json := Decoded (JArr [JStr "hi"]) |}
        (mock (httpx.Failed "down")) =
  ([], Returned (JSONResponse 500
         (obj [("error", JStr "'list' object has no attribute 'get'")]))).
Proof.
  split.
  - apply (chat_body_not_an_object (mock (httpx.Failed "down"))
             {| fastapi.json := Decoded JNull |} JNull).
    + reflexivity.
    + discriminate.
  - apply (chat_body_not_an_object (mock (httpx.Failed "down"))
             {| fastapi.json := Decoded (JArr [JStr "hi"]) |} (JArr [JStr "hi"])).
    + reflexivity.
    + discriminate.
Defined.

(** X18: a Chat request with a truthy [message] whose [message] or
    [conversation_id] holds NaN or an infinity is answered 500 with the text
    of the encoder's [ValueError], and nothing is sent to the upstream. *)
Theorem chat_payload_not_encodable w request data :
  fastapi.json request = Decoded (JObj data) ->
  truthy (default JNull (data !! "message")) = true ->
  json_compliant (default JNull (data !! "message")) = false \/
  json_compliant (default JNull (data !! "conversation_id")) = false ->
  serve Chat request w =
  ([], Returned (JSONResponse 500
         (obj [("error",
                JStr "Out of range float values are not JSON compliant")]))).
Proof.
  intros Hreq Htruthy Hbad.
  rewrite (chat_run w request data Hreq Htruthy). unfold chat_validated.
  destruct (json_compliant (JObj (chat_payload data))) eqn:Hp; [|reflexivity].
  apply chat_payload_compliant in Hp. destruct Hp as [Hm Hc].
  destruct Hbad as [H | H]; [rewrite Hm in H | rewrite Hc in H]; discriminate H.
Qed.

Lemma chat_payload_not_encodable_witness :
  serve Chat (json_request [("message", JFloat (S754_infinity false))])
        (mock (httpx.Responded (upstream_code_42 200))) =
  ([], Returned (JSONResponse 500
         (obj [("error",
                JStr "Out of range float values are not JSON compliant")]))).
Proof.
  apply (chat_payload_not_encodable
           (mock (httpx.Responded (upstream_code_42 200)))
           (json_request [("message", JFloat (S754_infinity false))])
           (list_to_map [("message", JFloat (S754_infinity false))])).
  - reflexivity.
  - reflexivity.
  - left. reflexivity.
Defined.

(** ** Unhandled faults *)

(** X7: when the upstream of Chat answers a request that was sent with a
    non-2xx status and a non-empty body that is not JSON, the
    [JSONDecodeError] raised inside the [except] clause leaves the handler
    after the one outbound call: the caller gets no response from the
    handler. *)
Theorem chat_error_body_not_json_escapes w request r msg :
  sendable request ->
  upstream_replies w (httpx.Responded r) ->
  httpx.is_success r = false ->
  nonempty (httpx.text r) = true ->
  httpx.json r = Malformed msg ->
  exists c, serve Chat request w = ([c], Raised (Exception msg)).
Proof.
  intros Hs Hup Herr Htext Hjson.
  destruct (chat_sent w request Hs) as (data & _ & _ & Hrun).
  eexists. rewrite Hrun, Hup. unfold chat_result.
  rewrite Herr, Htext, Hjson. reflexivity.
Qed.

Lemma chat_error_body_not_json_escapes_witness :
  exists c,
    serve Chat (json_request [("message", JStr "hi")])
          (mock (httpx.Responded (upstream_text 502 "Bad Gateway"))) =
    ([c], Raised (Exception "Expecting value: line 1 column 1 (char 0)")).
Proof.
  apply (chat_error_body_not_json_escapes _ _ (upstream_text 502 "Bad Gateway")).
  - exact sendable_hi.
  - apply upstream_replies_mock.
  - reflexivity.
  - reflexivity.
  - reflexivity.
Defined.

(** X20: when the upstream of Chat answers a request that was sent with a
    non-2xx status and a body that parses to a JSON value holding NaN or an
    infinity, constructing the [JSONResponse] inside the [except] clause
    raises [ValueError], which leaves the handler after the one outbound
    call. *)
Theorem chat_error_body_not_encodable_escapes w request r v :
  sendable request ->
  upstream_replies w (httpx.Responded r) ->
  httpx.is_success r = false ->
  nonempty (httpx.text r) = true ->
  httpx.json r = Decoded v ->
  json_compliant v = false ->
  exists c, serve Chat request w = ([c], Raised out_of_range).
Proof.
  intros Hs Hup Herr Htext Hjson Hbad.
  destruct (chat_sent w request Hs) as (data & _ & _ & Hrun).
  eexists. rewrite Hrun, Hup. unfold chat_result, rendered.
  rewrite Herr, Htext, Hjson, Hbad. reflexivity.
Qed.

Lemma chat_error_body_not_encodable_escapes_witness :
  exists c,
    serve Chat (json_request [("message", JStr "hi")])
          (mock (httpx.Responded (upstream_overflow 500))) =
    ([c], Raised out_of_range).
Proof.
  apply (chat_error_body_not_encodable_escapes _ _ (upstream_overflow 500)
           (obj [("x", JFloat (S754_infinity false))])).
  - exact sendable_hi.
  - apply upstream_replies_mock.
  - reflexivity.
  - reflexivity.
  - reflexivity.
  - reflexivity.
Defined.




Lemma rendered_returned status_code content resp :
  rendered status_code content = Returned resp ->
  json_compliant content = true /\ resp = JSONResponse status_code content.
Proof.
  unfold rendered. destruct (json_compliant content); [|discriminate].
  intros H. injection H as <-. split; reflexivity.
Qed.





(** X9: IssueStreamingToken answers an upstream 200 whose JSON body is not
    an object with 500: listing the keys of the body raises an
    [AttributeError], and its text and the traceback are the response. *)
Theorem streaming_token_needs_an_object w request r v :
  upstream_replies w (httpx.Responded r) ->
  httpx.status_code r = 200 ->
  httpx.json r = Decoded v ->
  (forall d, v <> JObj d) ->
  serve IssueStreamingToken request w =
  ([streaming_token_call w],
   Returned (JSONResponse 500
     (obj [("error",
            JStr ("'" ++ type_name v ++ "' object has no attribute 'keys'"));
           ("traceback",
            JStr (format_exc w
                    (Exception ("'" ++ type_name v ++
                                "' object has no attribute 'keys'"))))]))).
Proof.
  intros Hup Hstatus Hjson Hv.
  rewrite get_streaming_token_run, Hup. cbn [streaming_token_result].
  rewrite Hstatus, Hjson. cbn [Z.eqb Pos.eqb].
  destruct v; try reflexivity.
  exfalso. exact (Hv d eq_refl).
Qed.

Lemma streaming_token_needs_an_object_witness :
  serve IssueStreamingToken no_body
        (mock (httpx.Responded
                 {| httpx.status_code := 200;
                    httpx.text := "[]";
                    httpx.json := Decoded (JArr []) |})) =
  ([streaming_token_call
      (mock (httpx.Responded
               {| httpx.status_code := 200;
                  httpx.text := "[]";
                  httpx.json := Decoded (JArr []) |}))],
   Returned (JSONResponse 500
     (obj [("error", JStr "'list' object has no attribute 'keys'");
           ("traceback",
            JStr "Traceback (most recent call last): 'list' object has no attribute 'keys'")]))).
Proof.
  apply (streaming_token_needs_an_object
           (mock (httpx.Responded
                    {| httpx.status_code := 200;
                       httpx.text := "[]";
                       httpx.json := Decoded (JArr []) |}))
           no_body
           {| httpx.status_code := 200;
              httpx.text := "[]";
              httpx.json := Decoded (JArr []) |} (JArr [])).
  - apply upstream_replies_mock.
  - reflexivity.
  - reflexivity.
  - discriminate.
Defined.

(** ** Status codes *)

Lemma listing_result_status w with_traceback c resp :
  listing_result w with_traceback (send w c) = Returned resp ->
  fastapi.status_code resp = 200 \/
  fastapi.status_code resp = 500 \/
  (fastapi.status_code resp = 504 /\ exists msg, send w c = httpx.TimedOut msg) \/
  (exists r, send w c = httpx.Responded r /\
             fastapi.status_code resp = httpx.status_code r).
Proof.
  unfold listing_result.
  destruct (send w c) as [r|msg|msg].
  - destruct (httpx.is_success r).
    + destruct (httpx.json r) as [msg|v].
      * intros H. injection H as <-.
        destruct with_traceback; right; left; reflexivity.
      * intros H. apply rendered_returned in H. destruct H as [_ ->].
        left. reflexivity.
    + intros H. injection H as <-. right. right. right.
      exists r. split; reflexivity.
  - intros H. injection H as <-. right. right. left.
    split; [reflexivity|]. exists msg. reflexivity.
  - intros H. injection H as <-.
    destruct with_traceback; right; left; reflexivity.
Qed.

(** X10: the proxy invents no status. A response has status 200, or 400
    (Chat, before any call), or 500, or 504 after a call that timed out, or
    the status of the upstream answer to the call that was made. *)
Theorem status_is_fixed_or_upstream op request w calls resp :
  serve op request w = (calls, Returned resp) ->
  fastapi.status_code resp = 200 \/
  (fastapi.status_code resp = 400 /\ op = Chat /\ calls = []) \/
  fastapi.status_code resp = 500 \/
  (fastapi.status_code resp = 504 /\
   exists c msg, c ∈ calls /\ send w c = httpx.TimedOut msg) \/
  (exists c r,
     c ∈ calls /\ send w c = httpx.Responded r /\
     fastapi.status_code resp = httpx.status_code r).
Proof.
  assert (Hone : forall c tb,
    listing_result w tb (send w c) = Returned resp ->
    fastapi.status_code resp = 200 \/
    (fastapi.status_code resp = 400 /\ op = Chat /\ [c] = []) \/
    fastapi.status_code resp = 500 \/
    (fastapi.status_code resp = 504 /\
     exists c' msg, c' ∈ [c] /\ send w c' = httpx.TimedOut msg) \/
    (exists c' r,
       c' ∈ [c] /\ send w c' = httpx.Responded r /\
       fastapi.status_code resp = httpx.status_code r)).
  { intros c tb Hres.
    destruct (listing_result_status w tb c resp Hres)
      as [H | [H | [[H [msg Hs]] | [r [Hs H]]]]].
    - left. exact H.
    - right. right. left. exact H.
    - right. right. right. left. split; [exact H|].
      exists c, msg. split; [apply list_elem_of_here | exact Hs].
    - right. right. right. right.
      exists c, r. split; [apply list_elem_of_here|]. split; assumption. }
  destruct op.
  - destruct (root_run w request) as [v ->].
    intros H. injection H as <- <-. left. reflexivity.
  - rewrite serve_served. cbn [served].
    intros H. injection H as <- H. revert H. unfold streaming_token_result.
    destruct (send w (streaming_token_call w)) as [r|msg|msg] eqn:Hsend.
    + destruct (httpx.status_code r =? 200).
      * destruct (httpx.json r) as [msg|v].
        { intros H. injection H as <-. right. right. left. reflexivity. }
        destruct v;
          try (intros H; injection H as <-; right; right; left; reflexivity).
        intros H. apply rendered_returned in H. destruct H as [_ ->].
        left. reflexivity.
      * intros H. injection H as <-.
        right. right. right. right. exists (streaming_token_call w), r.
        split; [apply list_elem_of_here|]. split; [exact Hsend | reflexivity].
    + intros H. injection H as <-.
      right. right. right. left. split; [reflexivity|].
      exists (streaming_token_call w), msg.
      split; [apply list_elem_of_here | exact Hsend].
    + intros H. injection H as <-. right. right. left. reflexivity.
  - rewrite serve_served. cbn [served]. intros H. injection H as <- H.
    exact (Hone _ _ H).
  - rewrite serve_served. cbn [served]. intros H. injection H as <- H.
    exact (Hone _ _ H).
  - rewrite serve_served. cbn [served]. intros H. injection H as <- H.
    exact (Hone _ _ H).
  - rewrite serve_served. cbn [served].
    destruct (fastapi.json request) as [msg|v].
    { intros H. injection H as <- <-. right. right. left. reflexivity. }
    destruct v; try (intros H; injection H as <- <-; right; right; left; reflexivity).
    destruct (truthy (default JNull (d !! "message"))).
    2:{ intros H. injection H as <- <-. right. left. repeat split. }
    unfold chat_validated.
    destruct (json_compliant (JObj (chat_payload d))).
    2:{ intros H. injection H as <- <-. right. right. left. reflexivity. }
    intros H. injection H as <- H. revert H. unfold chat_result.
    destruct (send w (chat_call (chat_payload d))) as [r|msg|msg] eqn:Hsend.
    + assert (Hup : forall body,
                exists c' r',
                  c' ∈ [chat_call (chat_payload d)] /\
                  send w c' = httpx.Responded r' /\
                  fastapi.status_code (JSONResponse (httpx.status_code r) body) =
                  httpx.status_code r').
      { intros body. exists (chat_call (chat_payload d)), r.
        split; [apply list_elem_of_here|]. split; [exact Hsend | reflexivity]. }
      destruct (httpx.is_success r).
      * destruct (httpx.json r).
        -- intros H. injection H as <-. right. right. left. reflexivity.
        -- intros H. apply rendered_returned in H. destruct H as [_ ->].
           left. reflexivity.
      * destruct (nonempty (httpx.text r)).
        -- destruct (httpx.json r); [discriminate|].
           intros H. apply rendered_returned in H. destruct H as [_ ->].
           right. right. right. right. apply Hup.
        -- intros H. injection H as <-. right. right. right. right. apply Hup.
    + intros H. injection H as <-. right. right. right. left.
      split; [reflexivity|]. exists (chat_call (chat_payload d)), msg.
      split; [apply list_elem_of_here | exact Hsend].
    + intros H. injection H as <-. right. right. left. reflexivity.
Qed.

Lemma status_is_fixed_or_upstream_witness :
  418 = 200 \/
  (418 = 400 /\ ListVoices = Chat /\
   [heygen_get_call (mock (httpx.Responded (upstream_text 418 "teapot"))) "v2/voices"]
   = []) \/
  418 = 500 \/
  (418 = 504 /\
   exists c msg,
     c ∈ [heygen_get_call (mock (httpx.Responded (upstream_text 418 "teapot")))
            "v2/voices"] /\
     send (mock (httpx.Responded (upstream_text 418 "teapot"))) c =
     httpx.TimedOut msg) \/
  (exists c r,
     c ∈ [heygen_get_call (mock (httpx.Responded (upstream_text 418 "teapot")))
            "v2/voices"] /\
     send (mock (httpx.Responded (upstream_text 418 "teapot"))) c =
     httpx.Responded r /\
     418 = httpx.status_code r).
Proof.
  apply (status_is_fixed_or_upstream ListVoices no_body
           (mock (httpx.Responded (upstream_text 418 "teapot")))
           [heygen_get_call (mock (httpx.Responded (upstream_text 418 "teapot")))
              "v2/voices"]
           (JSONResponse 418 (obj [("error", JStr "teapot")]))).
  reflexivity.
Defined.



(** ** Error bodies *)



(** ** The two helpers *)

Lemma heygen_get_helper endpoint w log :
  heygen_get endpoint w log =
  ((log ++ [heygen_get_call w endpoint])%list,
   helper_result w (send w (heygen_get_call w endpoint))).
Proof. apply heygen_get_run. Qed.

Lemma heygen_post_helper endpoint data w log :
  heygen_post endpoint data w log =
  if encodable data then
    ((log ++ [heygen_post_call w endpoint data])%list,
     helper_result w (send w (heygen_post_call w endpoint data)))
  else (log, Raised out_of_range).
Proof.
  unfold heygen_post, bind, ask, client_send, raise_for_status, Response_json.
  fold (heygen_post_call w endpoint data).
  cbn [httpx.body heygen_post_call].
  destruct (encodable data); [|reflexivity].
  destruct (send w (heygen_post_call w endpoint data)) as [r|msg|msg];
    try reflexivity.
  unfold bind, ask, ret, raise, helper_result.
  destruct (httpx.is_success r); [|reflexivity].
  destruct (httpx.json r); reflexivity.
Qed.

Lemma helper_result_cases w o :
  (forall v,
     helper_result w o = Returned v <->
     exists r, o = httpx.Responded r /\ httpx.is_success r = true /\
               httpx.json r = Decoded v) /\
  (forall m r,
     helper_result w o = Raised (HTTPStatusError m r) <->
     o = httpx.Responded r /\ httpx.is_success r = false /\
     m = status_message w r) /\
  (forall msg,
     helper_result w o = Raised (TimeoutException msg) <-> o = httpx.TimedOut msg).
Proof.
  unfold helper_result. split; [|split].
  - intros v. split.
    + destruct o as [r|msg|msg]; try discriminate.
      destruct (httpx.is_success r) eqn:Hok; [|discriminate].
      destruct (httpx.json r) as [msg|v'] eqn:Hjson; [discriminate|].
      intros H. injection H as ->. exists r. repeat split; assumption.
    + intros (r & -> & Hok & Hjson). rewrite Hok, Hjson. reflexivity.
  - intros m r'. split.
    + destruct o as [r|msg|msg]; try discriminate.
      destruct (httpx.is_success r) eqn:Hok.
      * destruct (httpx.json r); discriminate.
      * intros H. injection H as <- <-. repeat split. exact Hok.
    + intros (-> & Hok & ->). rewrite Hok. reflexivity.
  - intros msg. split.
    + destruct o as [r|m|m]; try discriminate.
      * destruct (httpx.is_success r); [|discriminate].
        destruct (httpx.json r); discriminate.
      * intros H. injection H as ->. reflexivity.
    + intros ->. reflexivity.
Qed.

(** X12: [heygen_post] targets one POST to [BASE_URL/endpoint] with the
    payload as body, the API key and the JSON content type, and a timeout of
    60 seconds. A payload holding NaN or an infinity raises the encoder's
    [ValueError] and nothing is sent. Otherwise the call is made, and the
    helper returns a value exactly when the upstream answers 2xx with a body
    that decodes to it, raises [HTTPStatusError] carrying the response
    exactly when the answer is not 2xx, and raises [TimeoutException]
    exactly when the call times out: it answers nothing itself. *)
Theorem heygen_post_outcomes endpoint data w log :
  let c := heygen_post_call w endpoint data in
  httpx.method c = httpx.POST /\
  httpx.url c = BASE_URL ++ "/" ++ endpoint /\
  httpx.body c = data /\
  httpx.headers c = [("X-Api-Key", HEYGEN_API_KEY w);
                     ("Content-Type", "application/json")] /\
  httpx.timeout c = 60 /\
  (encodable data = false ->
   heygen_post endpoint data w log = (log, Raised out_of_range)) /\
  (encodable data = true ->
   fst (heygen_post endpoint data w log) = (log ++ [c])%list) /\
  (forall v,
     snd (heygen_post endpoint data w log) = Returned v <->
     encodable data = true /\
     exists r, send w c = httpx.Responded r /\ httpx.is_success r = true /\
               httpx.json r = Decoded v) /\
  (forall m r,
     snd (heygen_post endpoint data w log) = Raised (HTTPStatusError m r) <->
     encodable data = true /\
     send w c = httpx.Responded r /\ httpx.is_success r = false /\
     m = status_message w r) /\
  (forall msg,
     snd (heygen_post endpoint data w log) = Raised (TimeoutException msg) <->
     encodable data = true /\ send w c = httpx.TimedOut msg).
Proof.
  intros c. rewrite heygen_post_helper. fold c.
  repeat (split; [reflexivity|]).
  destruct (helper_result_cases w (send w c)) as (Hret & Herr & Htime).
  destruct (encodable data); cbn [fst snd].
  - split; [discriminate|]. split; [reflexivity|].
    split; [|split].
    + intros v. rewrite Hret. split; [intros H; split; [reflexivity | exact H]|].
      intros [_ H]. exact H.
    + intros m r. rewrite Herr. split; [intros H; split; [reflexivity | exact H]|].
      intros [_ H]. exact H.
    + intros msg. rewrite Htime. split; [intros H; split; [reflexivity | exact H]|].
      intros [_ H]. exact H.
  - split; [reflexivity|]. split; [discriminate|].
    split; [|split].
    + intros v. split; [discriminate | intros [H _]; discriminate H].
    + intros m r. split; [discriminate | intros [H _]; discriminate H].
    + intros msg. split; [discriminate | intros [H _]; discriminate H].
Qed.

Lemma heygen_post_outcomes_witness :
  heygen_post "v1/streaming.new"
    (Some (obj [("quality", JFloat S754_nan)]))
    (mock (httpx.Responded (upstream_code_42 200))) [] =
  ([], Raised out_of_range)
  /\
  fst (heygen_post "v1/streaming.new" (Some (obj [("quality", JStr "low")]))
         (mock (httpx.Responded (upstream_code_42 200))) []) =
  [heygen_post_call (mock (httpx.Responded (upstream_code_42 200)))
     "v1/streaming.new" (Some (obj [("quality", JStr "low")]))].
Proof.
  split.
  - apply (heygen_post_outcomes "v1/streaming.new"
             (Some (obj [("quality", JFloat S754_nan)]))
             (mock (httpx.Responded (upstream_code_42 200))) []).
    reflexivity.
  - apply (heygen_post_outcomes "v1/streaming.new"
             (Some (obj [("quality", JStr "low")]))
             (mock (httpx.Responded (upstream_code_42 200))) []).
    reflexivity.
Defined.

(** X13: [heygen_get] makes one GET to [BASE_URL/endpoint] with the API key
    and no body, and a timeout of 60 seconds. It returns a value exactly
    when the upstream answers 2xx with a body that decodes to it, raises
    [HTTPStatusError] carrying the response exactly when the answer is not
    2xx, and raises [TimeoutException] exactly when the call times out. *)
Theorem heygen_get_outcomes endpoint w log :
  let c := heygen_get_call w endpoint in
  fst (heygen_get endpoint w log) = (log ++ [c])%list /\
  httpx.method c = httpx.GET /\
  httpx.url c = BASE_URL ++ "/" ++ endpoint /\
  httpx.body c = None /\
  httpx.headers c = [("X-Api-Key", HEYGEN_API_KEY w)] /\
  httpx.timeout c = 60 /\
  (forall v,
     snd (heygen_get endpoint w log) = Returned v <->
     exists r, send w c = httpx.Responded r /\ httpx.is_success r = true /\
               httpx.json r = Decoded v) /\
  (forall m r,
     snd (heygen_get endpoint w log) = Raised (HTTPStatusError m r) <->
     send w c = httpx.Responded r /\ httpx.is_success r = false /\
     m = status_message w r) /\
  (forall msg,
     snd (heygen_get endpoint w log) = Raised (TimeoutException msg) <->
     send w c = httpx.TimedOut msg).
Proof.
  intros c. rewrite heygen_get_helper. fold c. cbn [fst snd].
  repeat (split; [reflexivity|]).
  apply helper_result_cases.
Qed.

(** ** What a response depends on *)

Lemma failure_response_ext w w' with_traceback msg :
  (with_traceback = true -> forall e, format_exc w e = format_exc w' e) ->
  failure_response w with_traceback msg = failure_response w' with_traceback msg.
Proof.
  intros H. unfold failure_response.
  destruct with_traceback; [|reflexivity]. rewrite (H eq_refl). reflexivity.
Qed.

Lemma listing_result_ext w w' with_traceback o :
  (with_traceback = true -> forall e, format_exc w e = format_exc w' e) ->
  listing_result w with_traceback o = listing_result w' with_traceback o.
Proof.
  intros H. unfold listing_result.
  destruct o as [r|msg|msg]; try reflexivity.
  - destruct (httpx.is_success r); [|reflexivity].
    destruct (httpx.json r); [|reflexivity].
    rewrite (failure_response_ext w w' with_traceback msg H). reflexivity.
  - rewrite (failure_response_ext w w' with_traceback msg H). reflexivity.
Qed.

Lemma streaming_token_result_ext w w' o :
  (forall e, format_exc w e = format_exc w' e) ->
  streaming_token_result w o = streaming_token_result w' o.
Proof.
  intros H. unfold streaming_token_result.
  assert (Hf : forall msg, failure_response w true msg = failure_response w' true msg).
  { intros msg. apply failure_response_ext. intros _. exact H. }
  destruct o as [r|msg|msg]; try reflexivity.
  - destruct (httpx.status_code r =? 200); [|reflexivity].
    destruct (httpx.json r) as [msg|v]; [rewrite Hf; reflexivity|].
    destruct v; try reflexivity; rewrite Hf; reflexivity.
  - rewrite Hf. reflexivity.
Qed.

Lemma heygen_get_call_key w w' endpoint :
  HEYGEN_API_KEY w = HEYGEN_API_KEY w' ->
  heygen_get_call w' endpoint = heygen_get_call w endpoint.
Proof. intros H. unfold heygen_get_call. rewrite H. reflexivity. Qed.

Lemma streaming_token_call_key w w' :
  HEYGEN_API_KEY w = HEYGEN_API_KEY w' ->
  streaming_token_call w' = streaming_token_call w.
Proof. intros H. unfold streaming_token_call. rewrite H. reflexivity. Qed.

Lemma root_world w w' request request' :
  serve HealthCheck request w = serve HealthCheck request' w'.
Proof. reflexivity. Qed.

(** X14: the calls and the response of an operation depend on the world only
    through the API key and the upstream's outcome for the one call the
    operation makes; the traceback printer matters to IssueStreamingToken
    and ListAllAvatars alone, and the message text of [HTTPStatusError] to
    no operation. *)
Theorem response_depends_on_own_call op request w w' :
  HEYGEN_API_KEY w = HEYGEN_API_KEY w' ->
  (forall c, c ∈ fst (serve op request w) -> send w c = send w' c) ->
  (op = IssueStreamingToken \/ op = ListAllAvatars ->
   forall e, format_exc w e = format_exc w' e) ->
  serve op request w = serve op request w'.
Proof.
  intros Hkey Hsend Hfmt.
  destruct op; [apply root_world | ..];
    rewrite serve_served in Hsend; rewrite !serve_served;
    cbn [served fst] in *.
  - rewrite (streaming_token_call_key w w' Hkey).
    rewrite <- (Hsend _ (list_elem_of_here _ _)).
    rewrite (streaming_token_result_ext w w'); [reflexivity|].
    apply Hfmt. left. reflexivity.
  - rewrite (heygen_get_call_key w w' _ Hkey).
    rewrite <- (Hsend _ (list_elem_of_here _ _)).
    rewrite (listing_result_ext w w'); [reflexivity|].
    intros _. apply Hfmt. right. reflexivity.
  - rewrite (heygen_get_call_key w w' _ Hkey).
    rewrite <- (Hsend _ (list_elem_of_here _ _)).
    rewrite (listing_result_ext w w'); [reflexivity | discriminate].
  - rewrite (heygen_get_call_key w w' _ Hkey).
    rewrite <- (Hsend _ (list_elem_of_here _ _)).
    rewrite (listing_result_ext w w'); [reflexivity | discriminate].
  - destruct (fastapi.json request) as [msg|v]; [reflexivity|].
    destruct v; try reflexivity.
    destruct (truthy (default JNull (d !! "message"))); [|reflexivity].
    unfold chat_validated in *.
    destruct (json_compliant (JObj (chat_payload d))); [|reflexivity].
    cbn [fst] in Hsend. rewrite <- (Hsend _ (list_elem_of_here _ _)). reflexivity.
Qed.

Lemma response_depends_on_own_call_witness :
  let w' := {| HEYGEN_API_KEY := "test-key";
               send := fun c =>
                 match httpx.method c with
                 | httpx.GET => httpx.Responded (upstream_text 404 "Not Found")
                 | httpx.POST => httpx.Failed "down"
                 end;
               status_message := fun _ => "Client error '404 Not Found'";
               format_exc := fun _ => "no traceback" |} in
  serve ListVoices no_body (mock (httpx.Responded (upstream_text 404 "Not Found"))) =
  serve ListVoices no_body w'.
Proof.
  intros w'.
  apply (response_depends_on_own_call ListVoices no_body
           (mock (httpx.Responded (upstream_text 404 "Not Found"))) w').
  - reflexivity.
  - intros c Hc. apply list_elem_of_singleton in Hc. subst c. reflexivity.
  - intros [H | H]; discriminate H.
Defined.

(** X15: the handlers put no API key into a result: the key influences the
    result only through the outcome the upstream gives to the call that
    carries it. Two worlds with any API keys that print the same tracebacks
    and whose upstreams give the same outcome to the call each of them
    receives yield the same result, for every operation and request. *)
Theorem api_key_matters_through_upstream_only op request w w' :
  (forall e, format_exc w e = format_exc w' e) ->
  (forall c c',
     c ∈ fst (serve op request w) -> c' ∈ fst (serve op request w') ->
     send w c = send w' c') ->
  snd (serve op request w) = snd (serve op request w').
Proof.
  intros Hfmt Hsend.
  destruct op; [rewrite (root_world w w' request request); reflexivity | ..];
    rewrite !serve_served in Hsend; rewrite !serve_served;
    cbn [served fst snd] in *.
  - rewrite (Hsend _ _ (list_elem_of_here _ _) (list_elem_of_here _ _)).
    apply streaming_token_result_ext, Hfmt.
  - rewrite (Hsend _ _ (list_elem_of_here _ _) (list_elem_of_here _ _)).
    apply listing_result_ext. intros _. exact Hfmt.
  - rewrite (Hsend _ _ (list_elem_of_here _ _) (list_elem_of_here _ _)).
    apply listing_result_ext. discriminate.
  - rewrite (Hsend _ _ (list_elem_of_here _ _) (list_elem_of_here _ _)).
    apply listing_result_ext. discriminate.
  - destruct (fastapi.json request) as [msg|v]; [reflexivity|].
    destruct v; try reflexivity.
    destruct (truthy (default JNull (d !! "message"))); [|reflexivity].
    unfold chat_validated in *.
    destruct (json_compliant (JObj (chat_payload d))); [|reflexivity].
    cbn [fst snd] in *.
    rewrite (Hsend _ _ (list_elem_of_here _ _) (list_elem_of_here _ _)).
    reflexivity.
Qed.

(** An upstream that accepts one key, and a world that holds another key
    and an upstream that accepts that one. *)
Lemma api_key_matters_through_upstream_only_witness :
  let keyed (key : string) : World :=
    {| HEYGEN_API_KEY := key;
       send := fun c =>
         if bool_decide (("X-Api-Key", key) ∈ httpx.headers c)
         then httpx.Responded (upstream_code_42 200)
         else httpx.Responded (upstream_text 401 "Unauthorized");
       status_message := fun _ => "upstream status error";
       format_exc := fun e => "Traceback (most recent call last): " ++ str e |} in
  snd (serve ListAllAvatars no_body (keyed "key-one")) =
  snd (serve ListAllAvatars no_body (keyed "key-two")).
Proof.
  intros keyed.
  apply (api_key_matters_through_upstream_only ListAllAvatars no_body
           (keyed "key-one") (keyed "key-two")).
  - intros e. reflexivity.
  - intros c c' Hc Hc'.
    apply list_elem_of_singleton in Hc. apply list_elem_of_singleton in Hc'.
    subst c c'. reflexivity.
Defined.

(** ** The shape of the outbound call *)

(** X16: whatever the request and the upstream, the call an operation makes
    has a fixed method, a fixed timeout and a fixed URL: the three listing
    operations GET three distinct paths of the avatar provider,
    IssueStreamingToken POSTs to its token path, all with 60 seconds, and
    Chat POSTs to the chat provider with 120 seconds. *)
Theorem outbound_call_shape op request w c :
  c ∈ fst (serve op request w) ->
  httpx.method c =
    match op with
    | ListAllAvatars | ListInteractiveAvatars | ListVoices => httpx.GET
    | _ => httpx.POST
    end /\
  httpx.timeout c = match op with Chat => 120 | _ => 60 end /\
  httpx.url c =
    match op with
    | IssueStreamingToken => "https://api.heygen.com/v1/streaming.create_token"
    | ListAllAvatars => "https://api.heygen.com/v2/avatars"
    | ListInteractiveAvatars => "https://api.heygen.com/v1/streaming/avatar.list"
    | ListVoices => "https://api.heygen.com/v2/voices"
    | _ => "https://rag-super-agent.onrender.com/chat/"
    end.
Proof.
  destruct op; [destruct (root_run w request) as [v ->] | rewrite serve_served ..].
  - cbn. intros H. apply elem_of_nil in H. destruct H.
  - cbn [served fst]. intros H. apply list_elem_of_singleton in H. subst c.
    repeat split.
  - cbn [served fst]. intros H. apply list_elem_of_singleton in H. subst c.
    repeat split.
  - cbn [served fst]. intros H. apply list_elem_of_singleton in H. subst c.
    repeat split.
  - cbn [served fst]. intros H. apply list_elem_of_singleton in H. subst c.
    repeat split.
  - intros H. destruct (chat_calls request w c H) as [data ->]. repeat split.
Qed.

Lemma outbound_call_shape_witness :
  let c := heygen_get_call (mock (httpx.TimedOut "ReadTimeout"))
             "v1/streaming/avatar.list" in
  httpx.method c = httpx.GET /\
  httpx.timeout c = 60 /\
  httpx.url c = "https://api.heygen.com/v1/streaming/avatar.list".
Proof.
  intros c.
  apply (outbound_call_shape ListInteractiveAvatars no_body
           (mock (httpx.TimedOut "ReadTimeout")) c).
  vm_compute. apply list_elem_of_here.
Defined.
